(** * smart-learn-hub: the Flask quiz platform of [app.py]

    A shallow embedding of the request handlers of [app.py] and the
    properties of its registration, login, session, catalogue and
    progress logic.

    - The SQLite tables [user] and [progress] are lists of rows in rowid
      order; [fetchone] is the first matching row.
    - The Flask session (a signed cookie only the server writes) holds the
      two keys [user_id] and [user_nickname]; each is present or absent.
    - JSON documents (the catalogue [quizzes.json], the bodies built by
      [jsonify]) are values of [json]; objects are finite maps keyed by
      strings.
    - A Python exception that no handler catches ends the request with
      Flask's 500 page. *)

From stdpp Require Import base option list strings gmap fin_maps.
From Stdlib Require Import ZArith Lia.

Open Scope string_scope.
Open Scope Z_scope.

(** ** JSON values *)

Set Warnings "-register-all".

Inductive json : Type :=
| JNull
| JBool (b : bool)
| JNum (n : Z)
| JStr (s : string)
| JArr (l : list json)
| JObj (o : gmap string json).

(** A Python dict literal [{k1: v1, ...}]; a later key overwrites. *)
Definition dict (l : list (string * json)) : gmap string json :=
  foldl (λ m kv, <[kv.1 := kv.2]> m) ∅ l.

(** ** Exceptions and results *)

Inductive exn : Type :=
| FileNotFoundError
| JSONDecodeError
| AttributeError
| KeyError
| TypeError
| OverflowError.

Inductive result (A : Type) : Type :=
| Ok (a : A)
| Raise (e : exn).
Arguments Ok {A} a.
Arguments Raise {A} e.

(** Sequencing: an exception raised by [r] skips the rest. *)
Definition bind {A B : Type} (r : result A) (k : A → result B) : result B :=
  match r with
  | Ok a => k a
  | Raise e => Raise e
  end.

Notation "'attempt' x ← r ; k" := (bind r (λ x, k))
  (at level 10, x name, r at level 100, k at level 200,
   format "'[v' 'attempt'  x  ←  r ; '/' k ']'").

(** ** The database

    [schema.sql] is not part of the sources; the tables are the ones the
    queries of [app.py] name. *)

Record user_row : Type := mk_user {
  user_id : Z;
  user_full_name : string;
  user_email : string;
  user_nickname : string;
  user_password : string
}.

Record progress_row : Type := mk_progress {
  progress_id : Z;
  progress_user_id : Z;
  progress_subject : string;
  progress_score : Z
}.

Record database : Type := mk_db {
  user : list user_row;
  progress : list progress_row
}.

(** Modelled from the spec: [schema.sql] is missing; the spec gives every
    row a numeric id, unique and assigned on insert. The id assigned to an
    [INSERT] that names none is, as for an SQLite integer primary key, one
    more than the largest id of the table, and 1 for an empty table. *)
Definition next_id (ids : list Z) : Z :=
  foldr Z.max 0 ids + 1.

(** A bound parameter compared with a text column: [None] is SQL NULL,
    which equals nothing. *)
Definition sql_eq (column : string) (param : option string) : bool :=
  match param with
  | Some s => String.eqb column s
  | None => false
  end.

(** [SELECT id FROM user WHERE nickname = ? OR email = ?] .fetchone() *)
Definition select_user_by_nickname_or_email
    (db : database) (nickname email : option string) : option user_row :=
  find (λ u, sql_eq (user_nickname u) nickname || sql_eq (user_email u) email)
       (user db).

(** [SELECT * FROM user WHERE nickname = ?] .fetchone() *)
Definition select_user_by_nickname
    (db : database) (nickname : option string) : option user_row :=
  find (λ u, sql_eq (user_nickname u) nickname) (user db).

(** [SELECT id, full_name, email, nickname FROM user WHERE id = ?] .fetchone() *)
Definition select_user_by_id (db : database) (uid : Z) : option user_row :=
  find (λ u, Z.eqb (user_id u) uid) (user db).

(** [INSERT INTO user (full_name, email, nickname, password) VALUES (?, ?, ?, ?)] *)
Definition insert_user
    (db : database) (full_name email nickname password : string) : database :=
  mk_db (user db ++
           [mk_user (next_id (user_id <$> user db))
                    full_name email nickname password])
        (progress db).

(** [SELECT subject, score FROM progress WHERE user_id = ?] .fetchall() *)
Definition select_progress_of (db : database) (uid : Z) : list progress_row :=
  filter (λ p, progress_user_id p = uid) (progress db).

(** [SELECT id, score FROM progress WHERE user_id = ? AND subject = ?] .fetchone() *)
Definition select_progress
    (db : database) (uid : Z) (subject : string) : option progress_row :=
  find (λ p, Z.eqb (progress_user_id p) uid && String.eqb (progress_subject p) subject)
       (progress db).

(** An integer that fits SQLite's INTEGER, a signed 64-bit value. Binding
    a Python int outside this range as a query parameter raises
    [OverflowError]. *)
Definition int64 (n : Z) : bool :=
  (- 2 ^ 63 <=? n) && (n <? 2 ^ 63).

(** The table after [UPDATE progress SET score = ? WHERE id = ?]. *)
Definition with_score (db : database) (score id : Z) : database :=
  mk_db (user db)
        ((λ p, if Z.eqb (progress_id p) id
               then mk_progress (progress_id p) (progress_user_id p)
                                (progress_subject p) score
               else p) <$> progress db).

(** The table after
    [INSERT INTO progress (user_id, subject, score) VALUES (?, ?, ?)]. *)
Definition with_row
    (db : database) (uid : Z) (subject : string) (score : Z) : database :=
  mk_db (user db)
        (progress db ++
           [mk_progress (next_id (progress_id <$> progress db)) uid subject score]).

(** [db.execute('UPDATE progress SET score = ? WHERE id = ?', (score, id))]:
    the score of the request is bound first. *)
Definition update_progress_score (db : database) (score id : Z) : result database :=
  if int64 score then Ok (with_score db score id) else Raise OverflowError.

(** [db.execute('INSERT INTO progress (user_id, subject, score) VALUES
    (?, ?, ?)', (user_id, subject, score))]: the score of the request is
    bound first. *)
Definition insert_progress
    (db : database) (uid : Z) (subject : string) (score : Z) : result database :=
  if int64 score then Ok (with_row db uid subject score) else Raise OverflowError.

(** ** The session, the catalogue file and the state of a request *)

Record session : Type := mk_session {
  session_user_id : option Z;
  session_user_nickname : option string
}.

(** [session.clear()] *)
Definition session_clear : session := mk_session None None.

(** ['user_id' in session] *)
Definition logged_in (s : session) : bool :=
  bool_decide (is_Some (session_user_id s)).

(** What [open('quizzes.json')] followed by [json.load] finds: no file, a
    file that is not JSON, or the subject-keyed catalogue object. *)
Inductive catalog_file : Type :=
| FileMissing
| NotJson
| Catalog (quizzes : gmap string json).

Definition load_quizzes (f : catalog_file) : result (gmap string json) :=
  match f with
  | FileMissing => Raise FileNotFoundError
  | NotJson => Raise JSONDecodeError
  | Catalog quizzes => Ok quizzes
  end.

Record state : Type := mk_state {
  st_db : database;
  st_session : session
}.

(** ** Responses *)

Inductive body : Type :=
| Json (j : json)
| InternalServerError.

Definition response : Type := Z * body.

(** [jsonify(j)] with no status is a 200. *)
Definition jsonify (j : json) : response := (200, Json j).
Definition jsonify_status (j : json) (status : Z) : response := (status, Json j).

(** An exception that leaves the view function: Flask answers 500. *)
Definition uncaught : response := (500, InternalServerError).

(** ** Request bodies

    [request.get_json()] yields a dict; [data.get(key)] is [None] for a
    missing key. The bodies carry text fields and an integer score, as the
    endpoints document them: a registration or a login may lack any
    field, a progress report names a subject and an integer score. *)

Record register_body : Type := mk_register_body {
  body_fullName : option string;
  body_email : option string;
  body_nickname : option string;
  body_password : option string
}.

Record login_body : Type := mk_login_body {
  login_nickname : option string;
  login_password : option string
}.

Record progress_body : Type := mk_progress_body {
  body_subject : string;
  body_score : Z
}.

(** Python truth value of a field: [None] and [''] are false. *)
Definition truthy (v : option string) : bool :=
  match v with
  | Some s => negb (String.eqb s "")
  | None => false
  end.

(** The text bound to a query for a field that passed [truthy]. *)
Definition text (v : option string) : string := default "" v.

(** [data.get(key, fallback)] on a dict. *)
Definition dict_get (data : gmap string json) (key : string) (fallback : json) : json :=
  default fallback (data !! key).

(** [value[key]] with a string key: [KeyError] on a dict without the key,
    [TypeError] on anything that is not a dict. *)
Definition subscript (value : json) (key : string) : result json :=
  match value with
  | JObj d =>
      match d !! key with
      | Some v => Ok v
      | None => Raise KeyError
      end
  | _ => Raise TypeError
  end.

Definition as_dict (value : json) : option (gmap string json) :=
  match value with
  | JObj d => Some d
  | _ => None
  end.

Definition unauthorized : response :=
  jsonify_status (JObj (dict [("error", JStr "Non autorisé")])) 401.

Definition success_true : response :=
  jsonify (JObj (dict [("success", JBool true)])).

Section Handlers.

(** werkzeug.security: the salted hash of a password (the salt is drawn
    afresh by every call) and its check. Both take the password as text;
    given [None] they raise. *)
Variable generate_password_hash : string → string → string.
Variable check_password_hash : string → string → bool.

(** *** /api/register *)
Definition register (salt : string) (data : register_body) (st : state)
  : state * response :=
  let full_name := body_fullName data in
  let email := body_email data in
  let nickname := body_nickname data in
  let password := body_password data in
  if negb (forallb truthy [full_name; email; nickname; password]) then
    (st, jsonify_status
           (JObj (dict [("success", JBool false);
                        ("message", JStr "Tous les champs sont requis.")])) 400)
  else
    let db := st_db st in
    if select_user_by_nickname_or_email db nickname email is Some _ then
      (st, jsonify_status
             (JObj (dict [("success", JBool false);
                          ("message", JStr "Ce pseudo ou cet email est déjà utilisé.")])) 409)
    else
      let hashed_password := generate_password_hash salt (text password) in
      let db := insert_user db (text full_name) (text email) (text nickname)
                            hashed_password in
      (mk_state db (st_session st),
       jsonify (JObj (dict [("success", JBool true);
                            ("message", JStr "Inscription réussie ! Vous pouvez maintenant vous connecter.")]))).

(** *** /api/login *)
Definition login_failed : response :=
  jsonify_status
    (JObj (dict [("success", JBool false);
                 ("message", JStr "Pseudo ou mot de passe incorrect.")])) 401.

Definition login (data : login_body) (st : state) : state * response :=
  let nickname := login_nickname data in
  let password := login_password data in
  let db := st_db st in
  match select_user_by_nickname db nickname with
  | Some user =>
      match password with
      | Some password =>
          if check_password_hash (user_password user) password then
            (mk_state db (mk_session (Some (user_id user)) (Some (user_nickname user))),
             success_true)
          else (st, login_failed)
      | None =>
          (* check_password_hash(user['password'], None) raises *)
          (st, uncaught)
      end
  | None => (st, login_failed)
  end.

(** *** /api/logout *)
Definition logout (st : state) : state * response :=
  (mk_state (st_db st) session_clear, success_true).

(** *** /api/check_session *)
Definition check_session (st : state) : response :=
  if logged_in (st_session st) then
    jsonify (JObj (dict [("logged_in", JBool true)]))
  else
    jsonify (JObj (dict [("logged_in", JBool false)])).

(** *** get_user_data: [None] or the profile dict *)
Definition get_user_data (st : state) : option json :=
  match session_user_id (st_session st) with
  | None => None
  | Some uid =>
      let db := st_db st in
      match select_user_by_id db uid with
      | None => None
      | Some user =>
          let progress_data := select_progress_of db uid in
          let progress :=
            dict ((λ item, (progress_subject item, JNum (progress_score item)))
                    <$> progress_data) in
          Some (JObj (dict [("id", JNum (user_id user));
                            ("fullName", JStr (user_full_name user));
                            ("email", JStr (user_email user));
                            ("nickname", JStr (user_nickname user));
                            ("progress", JObj progress)]))
      end
  end.

(** *** get_all_courses_info *)
Definition course_info (data : gmap string json) : json :=
  JObj (dict [("title", dict_get data "title" (JStr "Sans titre"));
              ("description", dict_get data "description" (JStr ""));
              ("emoji", dict_get data "emoji" (JStr "❓"));
              ("professor", dict_get data "professor" (JStr "N/A"));
              ("pdf_link", dict_get data "pdf_link" JNull)]).

(** The comprehension over [quizzes.items()]: [data.get] raises
    [AttributeError] on an entry that is not a dict. *)
Definition get_all_courses_info (f : catalog_file) : result (gmap string json) :=
  attempt quizzes ← load_quizzes f;
  if bool_decide (map_Forall (λ _ data, is_Some (as_dict data)) quizzes) then
    Ok (omap (λ data, course_info <$> as_dict data) quizzes)
  else Raise AttributeError.

(** *** /api/data *)
Definition get_app_data (f : catalog_file) (st : state) : response :=
  if negb (logged_in (st_session st)) then unauthorized
  else
    let user_info := get_user_data st in
    match get_all_courses_info f with
    | Ok courses_info =>
        jsonify (JObj (dict [("user", default JNull user_info);
                             ("courses", JObj courses_info)]))
    | Raise _ => uncaught
    end.

(** *** /api/courses *)
Definition catalog_not_found : response :=
  jsonify_status (JObj (dict [("error", JStr "Fichier de quiz non trouvé")])) 500.

Definition get_courses (f : catalog_file) : response :=
  match get_all_courses_info f with
  | Ok courses_info => jsonify (JObj courses_info)
  | Raise FileNotFoundError => catalog_not_found
  | Raise _ => uncaught
  end.

(** *** /api/quiz/<subject> *)
Definition quiz_not_found : response :=
  jsonify_status (JObj (dict [("error", JStr "Quiz non trouvé")])) 404.

Definition get_quiz (f : catalog_file) (subject : string) (st : state) : response :=
  if negb (logged_in (st_session st)) then unauthorized
  else
    match (attempt quizzes ← load_quizzes f;
           match quizzes !! subject with
           | Some entry =>
               attempt questions ← subscript entry "questions";
               Ok (jsonify questions)
           | None => Ok quiz_not_found
           end) with
    | Ok r => r
    | Raise FileNotFoundError => catalog_not_found
    | Raise _ => uncaught
    end.

(** *** /api/progress *)
Definition update_progress (data : progress_body) (st : state) : state * response :=
  match session_user_id (st_session st) with
  | None => (st, unauthorized)
  | Some uid =>
      let subject := body_subject data in
      let score := body_score data in
      let db := st_db st in
      let existing := select_progress db uid subject in
      match (match existing with
             | Some row =>
                 if score >? progress_score row
                 then update_progress_score db score (progress_id row)
                 else Ok db
             | None => insert_progress db uid subject score
             end) with
      | Ok db => (mk_state db (st_session st), success_true)
      | Raise _ => (st, uncaught)
      end
  end.

End Handlers.

(** ** Derived notions used by the statements *)

(** The score the store holds for (user, subject): the row the handler's
    own [SELECT ... fetchone()] reads. *)
Definition stored_score (db : database) (uid : Z) (subject : string) : option Z :=
  progress_score <$> select_progress db uid subject.



(** The primary key of [progress]: no two rows share an id. *)
Definition progress_ids_unique (db : database) : Prop :=
  NoDup (progress_id <$> progress db).


(** Every summary of a course listing is a dict without the key [questions]. *)
Definition no_questions_field (courses : gmap string json) : Prop :=
  ∀ subject summary,
    courses !! subject = Some summary →
    ∃ d, summary = JObj d ∧ d !! "questions" = None.

(** Every entry of the catalogue is a dict. *)
Definition entries_are_dicts (quizzes : gmap string json) : Prop :=
  map_Forall (λ _ data, is_Some (as_dict data)) quizzes.


(** Some row of [user] has this nickname or this email. *)
Definition already_used (db : database) (nickname email : string) : Prop :=
  ∃ u, u ∈ user db ∧ (user_nickname u = nickname ∨ user_email u = email).

(** The two ways a login is refused: no row has the nickname, or the row
    found does not pass the check of the password sent. *)
Inductive login_refused (check_password_hash : string → string → bool)
    (data : login_body) (st : state) : Prop :=
| unknown_nickname :
    select_user_by_nickname (st_db st) (login_nickname data) = None →
    login_refused check_password_hash data st
| wrong_password user password :
    select_user_by_nickname (st_db st) (login_nickname data) = Some user →
    login_password data = Some password →
    check_password_hash (user_password user) password = false →
    login_refused check_password_hash data st.

(** ** Sample data *)

Module Sample.

Definition hash (salt password : string) : string :=
  "scrypt$" ++ salt ++ "$" ++ password.

Definition check (pwhash password : string) : bool :=
  String.eqb pwhash (hash "NaCl" password).

Definition alice : user_row :=
  mk_user 1 "Alice Martin" "alice@example.org" "alice" (hash "NaCl" "s3cret").

Definition anonymous : session := session_clear.
Definition as_alice : session := mk_session (Some 1) (Some "alice").
(** A cookie issued to a user whose row is gone. *)
Definition as_ghost : session := mk_session (Some 7) (Some "ghost").

Definition db1 : database := mk_db [alice] [].

Definition math_questions : json :=
  JArr [JObj (dict [("question", JStr "2 + 2 ?"); ("answer", JNum 4)])].

Definition quizzes : gmap string json :=
  {[ "math" := JObj (dict [("title", JStr "Maths");
                          ("questions", math_questions)]) ]}.

End Sample.

(** ** The application as a whole *)

(** The routes of [app] that answer JSON, one constructor per endpoint,
    with what the request carries. *)
Inductive request : Type :=
| PostRegister (salt : string) (data : register_body)
| PostLogin (data : login_body)
| GetLogout
| GetCheckSession
| GetData
| GetCourses
| GetQuiz (subject : string)
| PostProgress (data : progress_body).

(** Flask's dispatch of a request to its view function. *)
Definition handle
    (generate_password_hash : string → string → string)
    (check_password_hash : string → string → bool)
    (f : catalog_file) (r : request) (st : state) : state * response :=
  match r with
  | PostRegister salt data => register generate_password_hash salt data st
  | PostLogin data => login check_password_hash data st
  | GetLogout => logout st
  | GetCheckSession => (st, check_session st)
  | GetData => (st, get_app_data f st)
  | GetCourses => (st, get_courses f)
  | GetQuiz subject => (st, get_quiz f subject st)
  | PostProgress data => update_progress data st
  end.

(** A sequence of requests, each arriving with its own session cookie (of
    any client), served in order against the one database. *)
Definition serve
    (generate_password_hash : string → string → string)
    (check_password_hash : string → string → bool)
    (f : catalog_file) (calls : list (session * request)) (db : database)
  : database :=
  foldl (λ db call,
           st_db (handle generate_password_hash check_password_hash f
                         call.2 (mk_state db call.1)).1)
        db calls.

(** ** Invariants of the database *)

(** No two users share an id, a nickname or an email. *)
Definition users_unique (db : database) : Prop :=
  NoDup (user_id <$> user db)
  ∧ NoDup (user_nickname <$> user db)
  ∧ NoDup (user_email <$> user db).

(** At most one row of [progress] per (user, subject). *)
Definition progress_keys_unique (db : database) : Prop :=
  NoDup ((λ p, (progress_user_id p, progress_subject p)) <$> progress db).

Definition db_invariant (db : database) : Prop :=
  users_unique db ∧ progress_ids_unique db ∧ progress_keys_unique db.

(** ** The best score *)

(** The score kept when [score] is reported over what is stored. *)
Definition merge_score (stored : option Z) (score : Z) : Z :=
  match stored with
  | Some old => Z.max old score
  | None => score
  end.


(** ** The connection of a request

    [get_db] and [close_db] keep the SQLite connection of the current
    application context in [g]. A connection is known by the rank of the
    [sqlite3.connect] call that opened it. *)

Module Connection.

Record context : Type := mk_context {
  g_db : option nat;      (* the entry ['db'] of [g] *)
  connected : nat;        (* how many times [sqlite3.connect] ran *)
  closed : list nat       (* the connections [close()] ran on *)
}.

Definition get_db (c : context) : nat * context :=
  match g_db c with
  | Some db => (db, c)
  | None =>
      let db := connected c in
      (db, mk_context (Some db) (S (connected c)) (closed c))
  end.

Definition close_db (c : context) : context :=
  match g_db c with
  | Some db => mk_context None (connected c) (db :: closed c)
  | None => c
  end.

(** [n] calls of [get_db] in a row, as the view functions of one request
    make them. *)
Fixpoint get_db_times (n : nat) (c : context) : context :=
  match n with
  | O => c
  | S n => get_db_times n (get_db c).2
  end.

(** Every connection opened so far is closed or is the one held in [g]. *)
Definition no_leak (c : context) : Prop :=
  ∀ db, (db < connected c)%nat → db ∈ closed c ∨ g_db c = Some db.

End Connection.

(** A registration body with its four fields present and non-empty. *)
Definition filled (data : register_body)
    (fullName email nickname password : string) : Prop :=
  data = mk_register_body (Some fullName) (Some email) (Some nickname) (Some password)
  ∧ fullName ≠ "" ∧ email ≠ "" ∧ nickname ≠ "" ∧ password ≠ "".

(** * Properties *)

(** ** Sessions *)

Lemma logged_in_Some (s : session) (uid : Z) :
  session_user_id s = Some uid → logged_in s = true.
Proof. intros H. unfold logged_in. rewrite H. by apply bool_decide_eq_true. Qed.

Lemma logged_in_None (s : session) :
  session_user_id s = None → logged_in s = false.
Proof.
  intros H. unfold logged_in. rewrite H.
  apply bool_decide_eq_false. by intros [? ?].
Qed.

(** C8. [logout] answers success from any state and leaves the session
    empty; after it [check_session] reports [logged_in: false] and both
    /api/data and /api/quiz/<subject> answer the 401 failure, whatever the
    catalogue file and the subject. *)
Theorem logout_clears_session (st : state) (f : catalog_file) (subject : string) :
  let st' := (logout st).1 in
  (logout st).2 = success_true
  ∧ st_session st' = session_clear
  ∧ st_db st' = st_db st
  ∧ check_session st' = jsonify (JObj (dict [("logged_in", JBool false)]))
  ∧ get_app_data f st' = unauthorized
  ∧ get_quiz f subject st' = unauthorized
  ∧ unauthorized.1 = 401.
Proof.
  unfold logout, check_session, get_app_data, get_quiz; simpl.
  by split_and!.
Qed.

(** C9. [register] never touches the session: whatever the outcome
    (success included), the session after it is the session before it, and
    [check_session] answers the same. *)
Theorem register_keeps_session
    (generate_password_hash : string → string → string)
    (salt : string) (data : register_body) (st : state) :
  let st' := (register generate_password_hash salt data st).1 in
  st_session st' = st_session st
  ∧ check_session st' = check_session st.
Proof.
  cbn. unfold register, check_session.
  destruct (negb _); [done|].
  by destruct (select_user_by_nickname_or_email _ _ _).
Qed.

(** ** Login *)

Section Login.

Variable check_password_hash : string → string → bool.

Lemma login_refused_response (data : login_body) (st : state) :
  login_refused check_password_hash data st →
  login check_password_hash data st = (st, login_failed).
Proof.
  unfold login. intros [Hnone | user password Hsome Hpassword Hcheck].
  - by rewrite Hnone.
  - by rewrite Hsome, Hpassword, Hcheck.
Qed.

Lemma login_accepted_response (data : login_body) (st : state)
    (user : user_row) (password : string) :
  select_user_by_nickname (st_db st) (login_nickname data) = Some user →
  login_password data = Some password →
  check_password_hash (user_password user) password = true →
  (login check_password_hash data st).2 = success_true.
Proof.
  unfold login. intros Hsome Hpassword Hcheck. by rewrite Hsome, Hpassword, Hcheck.
Qed.

(** A login whose body has no password: the 401 when no row has the
    nickname, an uncaught exception when one has. *)
Lemma login_without_password (nickname : option string) (st : state) :
  login check_password_hash (mk_login_body nickname None) st
  = (st, if select_user_by_nickname (st_db st) nickname is Some _
         then uncaught else login_failed).
Proof.
  unfold login. cbn [login_nickname login_password].
  by destruct (select_user_by_nickname _ _).
Qed.

End Login.

(** Two refused logins that both carry a password, one for an unknown
    nickname and one for a wrong password (or any two such refusals,
    against any states), get the same response: status 401 with the one
    message [login_failed] carries; the session is left as it was. *)
Lemma login_failures_indistinguishable
    (check_password_hash : string → string → bool)
    (data1 data2 : login_body) (st1 st2 : state) :
  login_refused check_password_hash data1 st1 →
  login_refused check_password_hash data2 st2 →
  (login check_password_hash data1 st1).2 = (login check_password_hash data2 st2).2
  ∧ (login check_password_hash data1 st1).2 =
      (401, Json (JObj (dict [("success", JBool false);
                              ("message", JStr "Pseudo ou mot de passe incorrect.")])))
  ∧ (login check_password_hash data1 st1).1 = st1
  ∧ (login check_password_hash data2 st2).1 = st2.
Proof.
  intros H1 H2.
  rewrite (login_refused_response _ _ _ H1), (login_refused_response _ _ _ H2).
  done.
Qed.

(** C3 fails on the code. The same body, a nickname and no password, is
    answered 500 when the nickname is registered and 401 when it is not
    (whatever [check_password_hash] is: it is never reached with a
    result): the two failing logins are told apart by their status, and a
    caller learns which nicknames exist. *)
Theorem login_without_password_reveals_nickname
    (check_password_hash : string → string → bool) :
  let st := mk_state Sample.db1 Sample.anonymous in
  let registered := mk_login_body (Some "alice") None in
  let unknown := mk_login_body (Some "bob") None in
  login check_password_hash registered st = (st, (500, InternalServerError))
  ∧ login check_password_hash unknown st
    = (st, (401, Json (JObj (dict [("success", JBool false);
                                   ("message", JStr "Pseudo ou mot de passe incorrect.")]))))
  ∧ (login check_password_hash registered st).2.1
    ≠ (login check_password_hash unknown st).2.1.
Proof.
  intros st registered unknown. subst registered unknown.
  rewrite !login_without_password. cbn. by split_and!.
Qed.

(** ** /api/data with a stale session *)

Lemma get_user_data_stale (st : state) (uid : Z) :
  session_user_id (st_session st) = Some uid →
  select_user_by_id (st_db st) uid = None →
  get_user_data st = None.
Proof. unfold get_user_data. by intros -> ->. Qed.

(** Without a readable catalogue the stale session gets a 500, still not
    the 401. *)
Lemma get_app_data_stale_never_401 (f : catalog_file) (st : state) (uid : Z) :
  session_user_id (st_session st) = Some uid →
  (get_app_data f st).1 ≠ 401.
Proof.
  intros Hsession. unfold get_app_data. rewrite (logged_in_Some _ _ Hsession).
  cbn. by destruct (get_all_courses_info f).
Qed.

(** C10, as claimed, fails when the catalogue cannot be read: the stale
    session is then answered 500, not a 200 with a null user. *)
Lemma stale_session_with_missing_catalog :
  let st := mk_state Sample.db1 Sample.as_ghost in
  session_user_id (st_session st) = Some 7
  ∧ select_user_by_id (st_db st) 7 = None
  ∧ get_app_data FileMissing st = (500, InternalServerError)
  ∧ (get_app_data FileMissing st).1 ≠ 200.
Proof. intros st. by split_and!. Qed.

(** C10, amended. A session whose user id matches no row of [user] still
    passes the guard of /api/data: the answer is never the 401. When the
    course listing can be built it is a 200 whose [user] field is null;
    when it cannot (no file, not JSON, an entry that is not a dict) it is
    Flask's 500. *)
Theorem get_app_data_stale_session
    (f : catalog_file) (st : state) (uid : Z) :
  session_user_id (st_session st) = Some uid →
  select_user_by_id (st_db st) uid = None →
  get_app_data f st ≠ unauthorized
  ∧ (get_app_data f st).1 ≠ 401
  ∧ (∀ courses, get_all_courses_info f = Ok courses →
       (get_app_data f st).1 = 200
       ∧ ∃ o, (get_app_data f st).2 = Json (JObj o)
              ∧ o !! "user" = Some JNull
              ∧ o !! "courses" = Some (JObj courses))
  ∧ ((∀ courses, get_all_courses_info f ≠ Ok courses) →
       get_app_data f st = (500, InternalServerError)).
Proof.
  intros Hsession Hrow. unfold get_app_data.
  rewrite (logged_in_Some _ _ Hsession), (get_user_data_stale _ _ Hsession Hrow).
  cbn [negb]. destruct (get_all_courses_info f) as [courses|e].
  - split_and!; [done | done | | by intros Hnone; destruct (Hnone courses)].
    intros ? [= <-]. split; [done|].
    eexists. split; [reflexivity|]. unfold dict. cbn [foldl fst snd default].
    split; [by rewrite lookup_insert_ne, lookup_insert_eq | apply lookup_insert_eq].
  - by split_and!.
Qed.

Lemma get_app_data_stale_session_witness :
  let st := mk_state Sample.db1 Sample.as_ghost in
  (get_app_data (Catalog ∅) st).1 = 200
  ∧ (∃ o, (get_app_data (Catalog ∅) st).2 = Json (JObj o)
          ∧ o !! "user" = Some JNull)
  ∧ get_app_data NotJson st = (500, InternalServerError).
Proof.
  intros st.
  destruct (get_app_data_stale_session (Catalog ∅) st 7 eq_refl eq_refl)
    as (_ & _ & Hbuilt & _).
  destruct (Hbuilt ∅ eq_refl) as (Hstatus & o & Hbody & Huser & _).
  destruct (get_app_data_stale_session NotJson st 7 eq_refl eq_refl)
    as (_ & _ & _ & Hbroken).
  split_and!; [exact Hstatus | by exists o | by apply Hbroken].
Defined.

(** ** /api/quiz/<subject> *)

(** C7, as claimed, fails on its last case: for a logged-in user, a
    readable catalogue and a subject that is one of its keys, an entry
    without [questions] is answered 500, not a question sequence. *)
Lemma quiz_entry_without_questions_is_500 :
  let st := mk_state Sample.db1 Sample.as_alice in
  let quizzes : gmap string json := {[ "math" := JObj {[ "title" := JStr "Maths" ]} ]} in
  logged_in (st_session st) = true
  ∧ quizzes !! "math" = Some (JObj {[ "title" := JStr "Maths" ]})
  ∧ get_quiz (Catalog quizzes) "math" st = (500, InternalServerError).
Proof.
  intros st quizzes. split_and!; [done | apply lookup_singleton_eq |].
  unfold get_quiz. cbn. unfold quizzes. rewrite lookup_singleton_eq. cbn.
  by rewrite lookup_singleton_ne.
Qed.

(** C7, amended. The outcomes of /api/quiz/<subject>, in the order the
    handler checks them: no user in the session gives the 401; with a
    user, a subject that is not a key of the catalogue gives the 404
    (and not an empty list); a catalogue file that is missing or is not
    JSON gives a 500; a subject whose entry is a dict carrying [questions]
    gives that value back unchanged with a 200; a subject whose entry is
    not a dict or carries no [questions] gives a 500. *)
Theorem get_quiz_outcomes (f : catalog_file) (subject : string) (st : state) :
  (logged_in (st_session st) = false →
     get_quiz f subject st = unauthorized ∧ unauthorized.1 = 401)
  ∧ (logged_in (st_session st) = true →
     ∀ quizzes, f = Catalog quizzes → quizzes !! subject = None →
       get_quiz f subject st = quiz_not_found
       ∧ quiz_not_found.1 = 404
       ∧ quiz_not_found.2 ≠ Json (JArr []))
  ∧ (logged_in (st_session st) = true →
     f = FileMissing ∨ f = NotJson →
       (get_quiz f subject st).1 = 500)
  ∧ (logged_in (st_session st) = true →
     ∀ quizzes entry questions,
       f = Catalog quizzes →
       quizzes !! subject = Some (JObj entry) →
       entry !! "questions" = Some questions →
       get_quiz f subject st = (200, Json questions))
  ∧ (logged_in (st_session st) = true →
     ∀ quizzes entry,
       f = Catalog quizzes →
       quizzes !! subject = Some entry →
       ¬ (∃ d questions, entry = JObj d ∧ d !! "questions" = Some questions) →
       get_quiz f subject st = (500, InternalServerError)).
Proof.
  unfold get_quiz. split_and!.
  - by intros ->.
  - intros -> quizzes -> Hnone. cbn. by rewrite Hnone.
  - by intros -> [-> | ->].
  - intros -> quizzes entry questions -> Hentry Hquestions. cbn.
    rewrite Hentry. cbn. by rewrite Hquestions.
  - intros -> quizzes entry -> Hentry Hbad. cbn. rewrite Hentry. cbn.
    destruct entry as [| | | | |d]; try done. cbn.
    destruct (d !! "questions") as [questions|] eqn:Hq; [|done].
    destruct Hbad. eauto.
Qed.

Lemma get_quiz_outcomes_witness :
  get_quiz (Catalog Sample.quizzes) "math" (mk_state Sample.db1 Sample.anonymous)
    = unauthorized
  ∧ get_quiz (Catalog Sample.quizzes) "latin" (mk_state Sample.db1 Sample.as_alice)
    = quiz_not_found
  ∧ (get_quiz FileMissing "math" (mk_state Sample.db1 Sample.as_alice)).1 = 500
  ∧ get_quiz (Catalog Sample.quizzes) "math" (mk_state Sample.db1 Sample.as_alice)
    = (200, Json Sample.math_questions)
  ∧ get_quiz (Catalog {[ "math" := JArr [] ]}) "math"
      (mk_state Sample.db1 Sample.as_alice)
    = (500, InternalServerError).
Proof.
  split_and!.
  - apply (get_quiz_outcomes (Catalog Sample.quizzes) "math"
             (mk_state Sample.db1 Sample.anonymous)).
    reflexivity.
  - eapply (get_quiz_outcomes (Catalog Sample.quizzes) "latin"
              (mk_state Sample.db1 Sample.as_alice));
      reflexivity.
  - apply (get_quiz_outcomes FileMissing "math"
             (mk_state Sample.db1 Sample.as_alice));
      [reflexivity | by left].
  - eapply (get_quiz_outcomes (Catalog Sample.quizzes) "math"
              (mk_state Sample.db1 Sample.as_alice));
      reflexivity.
  - eapply (get_quiz_outcomes (Catalog {[ "math" := JArr [] ]}) "math"
              (mk_state Sample.db1 Sample.as_alice));
      [reflexivity | reflexivity | apply lookup_singleton_eq |].
    by intros (d & questions & [=] & _).
Defined.

Lemma get_quiz_entry_without_questions
    (quizzes : gmap string json) (subject : string) (st : state) (entry : gmap string json) :
  logged_in (st_session st) = true →
  quizzes !! subject = Some (JObj entry) →
  entry !! "questions" = None →
  get_quiz (Catalog quizzes) subject st = uncaught.
Proof.
  intros Hin Hentry Hnone. unfold get_quiz. rewrite Hin. cbn.
  rewrite Hentry. cbn. by rewrite Hnone.
Qed.

(** ** The course listing *)

Lemma dict_get_present (data : gmap string json) (key : string) (fallback v : json) :
  data !! key = Some v → dict_get data key fallback = v.
Proof. unfold dict_get. by intros ->. Qed.

Lemma dict_get_missing (data : gmap string json) (key : string) (fallback : json) :
  data !! key = None → dict_get data key fallback = fallback.
Proof. unfold dict_get. by intros ->. Qed.

(** The five keys of a summary, and nothing else. *)
Lemma course_info_lookup (data : gmap string json) :
  ∃ d, course_info data = JObj d
       ∧ d !! "title" = Some (dict_get data "title" (JStr "Sans titre"))
       ∧ d !! "description" = Some (dict_get data "description" (JStr ""))
       ∧ d !! "emoji" = Some (dict_get data "emoji" (JStr "❓"))
       ∧ d !! "professor" = Some (dict_get data "professor" (JStr "N/A"))
       ∧ d !! "pdf_link" = Some (dict_get data "pdf_link" JNull)
       ∧ dom d = {[ "title"; "description"; "emoji"; "professor"; "pdf_link" ]}.
Proof.
  eexists. split; [reflexivity|]. unfold dict. cbn.
  split_and!; by simplify_map_eq.
Qed.

Lemma get_all_courses_info_Ok (quizzes : gmap string json) :
  entries_are_dicts quizzes →
  get_all_courses_info (Catalog quizzes)
  = Ok (omap (λ data, course_info <$> as_dict data) quizzes).
Proof.
  intros Hdicts. unfold get_all_courses_info. cbn.
  by rewrite bool_decide_eq_true_2.
Qed.

Lemma get_all_courses_info_inv (f : catalog_file) (courses : gmap string json) :
  get_all_courses_info f = Ok courses →
  ∃ quizzes, f = Catalog quizzes
             ∧ entries_are_dicts quizzes
             ∧ courses = omap (λ data, course_info <$> as_dict data) quizzes.
Proof.
  unfold get_all_courses_info. destruct f as [| |quizzes]; cbn; try done.
  case_bool_decide as Hdicts; [|done].
  intros [= <-]. by exists quizzes.
Qed.

Lemma courses_lookup (quizzes : gmap string json) (subject : string) :
  omap (λ data, course_info <$> as_dict data) quizzes !! subject
  = quizzes !! subject ≫= λ data, course_info <$> as_dict data.
Proof. apply lookup_omap. Qed.

Lemma courses_no_questions (quizzes : gmap string json) :
  no_questions_field (omap (λ data, course_info <$> as_dict data) quizzes).
Proof.
  intros subject summary. rewrite courses_lookup.
  destruct (quizzes !! subject) as [[| | | | |data]|]; cbn; try done.
  intros [= <-]. eexists. split; [reflexivity|].
  unfold dict. cbn. by simplify_map_eq.
Qed.

Lemma courses_dom (quizzes : gmap string json) :
  entries_are_dicts quizzes →
  dom (omap (λ data, course_info <$> as_dict data) quizzes) = dom quizzes.
Proof.
  intros Hdicts. apply set_eq. intros subject.
  rewrite !elem_of_dom, courses_lookup. split.
  - destruct (quizzes !! subject); [eauto | by intros [? ?]].
  - intros [data Hdata]. rewrite Hdata. cbn.
    destruct (Hdicts _ _ Hdata) as [d ->]. eauto.
Qed.

(** C5, as claimed, fails on the title: an entry without [title] is listed
    with ["Sans titre"], not ["Untitled"]. *)
Lemma course_title_default_is_not_Untitled :
  ∃ courses summary,
    get_all_courses_info (Catalog {[ "math" := JObj ∅ ]}) = Ok courses
    ∧ courses !! "math" = Some (JObj summary)
    ∧ summary !! "title" = Some (JStr "Sans titre")
    ∧ summary !! "title" ≠ Some (JStr "Untitled").
Proof.
  destruct (course_info_lookup ∅) as (summary & Hsummary & Htitle & _).
  rewrite (dict_get_missing _ _ _ (lookup_empty _)) in Htitle.
  exists (omap (λ data, course_info <$> as_dict data) {[ "math" := JObj ∅ ]}), summary.
  split_and!.
  - apply get_all_courses_info_Ok. by apply map_Forall_singleton.
  - rewrite courses_lookup, lookup_singleton_eq. cbn. by rewrite Hsummary.
  - exact Htitle.
  - rewrite Htitle. intros [=].
Qed.

(** C5, amended. For a catalogue of dict entries the listing is built, and
    the summary of an entry takes for each optional key the entry lacks the
    default of the code: title ["Sans titre"], description [""], emoji
    ["❓"], professor ["N/A"] (and a null [pdf_link]). *)
Theorem course_defaults
    (quizzes : gmap string json) (subject : string) (data : gmap string json) :
  entries_are_dicts quizzes →
  quizzes !! subject = Some (JObj data) →
  ∃ courses summary,
    get_all_courses_info (Catalog quizzes) = Ok courses
    ∧ courses !! subject = Some (JObj summary)
    ∧ (data !! "title" = None → summary !! "title" = Some (JStr "Sans titre"))
    ∧ (data !! "description" = None → summary !! "description" = Some (JStr ""))
    ∧ (data !! "emoji" = None → summary !! "emoji" = Some (JStr "❓"))
    ∧ (data !! "professor" = None → summary !! "professor" = Some (JStr "N/A"))
    ∧ (data !! "pdf_link" = None → summary !! "pdf_link" = Some JNull).
Proof.
  intros Hdicts Hentry.
  destruct (course_info_lookup data)
    as (summary & Hsummary & Htitle & Hdescr & Hemoji & Hprof & Hpdf & _).
  exists (omap (λ data, course_info <$> as_dict data) quizzes), summary.
  split_and!.
  - by apply get_all_courses_info_Ok.
  - rewrite courses_lookup, Hentry. cbn. by rewrite Hsummary.
  - intros H. by rewrite Htitle, (dict_get_missing _ _ _ H).
  - intros H. by rewrite Hdescr, (dict_get_missing _ _ _ H).
  - intros H. by rewrite Hemoji, (dict_get_missing _ _ _ H).
  - intros H. by rewrite Hprof, (dict_get_missing _ _ _ H).
  - intros H. by rewrite Hpdf, (dict_get_missing _ _ _ H).
Qed.

Lemma course_defaults_witness :
  ∃ courses summary,
    get_all_courses_info (Catalog Sample.quizzes) = Ok courses
    ∧ courses !! "math" = Some (JObj summary)
    ∧ summary !! "emoji" = Some (JStr "❓")
    ∧ summary !! "professor" = Some (JStr "N/A").
Proof.
  destruct (course_defaults Sample.quizzes "math"
              (dict [("title", JStr "Maths"); ("questions", Sample.math_questions)]))
    as (courses & summary & Hok & Hsummary & _ & _ & Hemoji & Hprof & _).
  - by apply map_Forall_singleton.
  - reflexivity.
  - exists courses, summary.
    split_and!; [exact Hok | exact Hsummary | by apply Hemoji | by apply Hprof].
Defined.

Lemma get_courses_200 (f : catalog_file) (courses : gmap string json) :
  get_courses f = (200, Json (JObj courses)) →
  get_all_courses_info f = Ok courses.
Proof.
  unfold get_courses.
  destruct (get_all_courses_info f) as [c|[]]; try done.
  by intros [= ->].
Qed.

Lemma get_app_data_200 (f : catalog_file) (st : state) (o : gmap string json) :
  get_app_data f st = (200, Json (JObj o)) →
  ∃ courses, get_all_courses_info f = Ok courses
             ∧ o !! "courses" = Some (JObj courses).
Proof.
  unfold get_app_data. destruct (negb _); [done|].
  destruct (get_all_courses_info f) as [c|]; [|done].
  intros [= <-]. exists c. split; [done|]. unfold dict. cbn. by simplify_map_eq.
Qed.

(** C6. No summary of the course listing has a [questions] key: not in the
    mapping [get_all_courses_info] builds, not in the body of a 200 of
    /api/courses, not in the [courses] field of a 200 of /api/data. For a
    catalogue of dict entries (with or without [questions]) the listing
    is built, has one summary per subject, and both endpoints serve it. *)
Theorem listing_has_no_questions (f : catalog_file) (st : state) :
  (∀ courses, get_all_courses_info f = Ok courses → no_questions_field courses)
  ∧ (∀ courses, get_courses f = (200, Json (JObj courses)) →
       no_questions_field courses)
  ∧ (∀ o, get_app_data f st = (200, Json (JObj o)) →
       ∃ courses, o !! "courses" = Some (JObj courses)
                  ∧ no_questions_field courses)
  ∧ (∀ quizzes, f = Catalog quizzes → entries_are_dicts quizzes →
       ∃ courses, get_all_courses_info f = Ok courses
                  ∧ dom courses = dom quizzes
                  ∧ get_courses f = (200, Json (JObj courses))
                  ∧ (logged_in (st_session st) = true →
                       ∃ o, get_app_data f st = (200, Json (JObj o))
                            ∧ o !! "courses" = Some (JObj courses))).
Proof.
  assert (Hinfo : ∀ courses,
             get_all_courses_info f = Ok courses → no_questions_field courses).
  { intros courses (quizzes & _ & _ & ->)%get_all_courses_info_inv.
    apply courses_no_questions. }
  split_and!.
  - exact Hinfo.
  - intros courses Hresp%get_courses_200. by apply Hinfo.
  - intros o (courses & Hok & Hfield)%get_app_data_200.
    exists courses. split; [done | by apply Hinfo].
  - intros quizzes -> Hdicts.
    exists (omap (λ data, course_info <$> as_dict data) quizzes).
    pose proof (get_all_courses_info_Ok _ Hdicts) as Hok.
    split_and!; [done | by apply courses_dom | |].
    + unfold get_courses. by rewrite Hok.
    + intros Hin. unfold get_app_data. rewrite Hin, Hok. cbn.
      eexists. split; [reflexivity|]. unfold dict. cbn. by simplify_map_eq.
Qed.

Lemma listing_has_no_questions_witness :
  ∃ courses summary,
    get_courses (Catalog Sample.quizzes) = (200, Json (JObj courses))
    ∧ courses !! "math" = Some (JObj summary)
    ∧ summary !! "questions" = None.
Proof.
  destruct (listing_has_no_questions (Catalog Sample.quizzes)
              (mk_state Sample.db1 Sample.as_alice))
    as (_ & Hno & _ & Hserved).
  destruct (Hserved Sample.quizzes) as (courses & _ & Hdom & Hresp & _).
  - reflexivity.
  - by apply map_Forall_singleton.
  - assert (is_Some (courses !! "math")) as [summary Hsummary].
    { apply elem_of_dom. rewrite Hdom. unfold Sample.quizzes. set_solver. }
    destruct (Hno courses Hresp "math" summary Hsummary) as (d & -> & Hd).
    exists courses, d. split_and!; [exact Hresp | exact Hsummary | exact Hd].
Defined.

(** ** Registration *)


Lemma truthy_present (s : string) : s ≠ "" → truthy (Some s) = true.
Proof.
  intros Hs. unfold truthy. apply negb_true_iff. by apply String.eqb_neq.
Qed.

Lemma sql_eq_Some (column s : string) : sql_eq column (Some s) = true ↔ column = s.
Proof. apply String.eqb_eq. Qed.

(** The duplicate check finds a row exactly when the nickname or the email
    is in use. *)
Lemma select_user_by_nickname_or_email_Some (db : database) (nickname email : string) :
  is_Some (select_user_by_nickname_or_email db (Some nickname) (Some email))
  ↔ already_used db nickname email.
Proof.
  unfold select_user_by_nickname_or_email, already_used. split.
  - intros [u [Hin Hu]%find_some]. exists u.
    rewrite list_elem_of_In. split; [done|].
    apply orb_true_iff in Hu. by rewrite !sql_eq_Some in Hu.
  - intros (u & Hin%list_elem_of_In & Hu).
    destruct (find _ (user db)) as [u'|] eqn:Hfind; [eauto|].
    pose proof (find_none _ _ Hfind u Hin) as Hfalse. cbv beta in Hfalse.
    apply orb_false_iff in Hfalse as [Hn He].
    destruct Hu as [Hu|Hu]; apply sql_eq_Some in Hu; congruence.
Qed.


Lemma register_passes_validation
    (fullName email nickname password : string) :
  fullName ≠ "" → email ≠ "" → nickname ≠ "" → password ≠ "" →
  forallb truthy [Some fullName; Some email; Some nickname; Some password] = true.
Proof. intros. unfold forallb. by rewrite !truthy_present. Qed.



(** ** The progress table *)

Section Find.

Context {A : Type} (f : A → bool).

Lemma find_app (l k : list A) :
  find f (l ++ k) = match find f l with
                    | Some x => Some x
                    | None => find f k
                    end.
Proof.
  induction l as [|x l IH]; [done|]. cbn. by destruct (f x).
Qed.

(** A row-wise update that keeps what the query tests keeps the row the
    query finds, updated. *)
Lemma find_fmap (g : A → A) (l : list A) :
  (∀ x, f (g x) = f x) → find f (g <$> l) = g <$> find f l.
Proof.
  intros Hg. induction l as [|x l IH]; [done|]. cbn.
  rewrite Hg. by destruct (f x).
Qed.

Lemma find_elem_of (l : list A) (x : A) :
  find f l = Some x → x ∈ l ∧ f x = true.
Proof. intros [Hin Hx]%find_some. by rewrite list_elem_of_In. Qed.

End Find.

Lemma next_id_above (ids : list Z) (id : Z) : id ∈ ids → id < next_id ids.
Proof.
  unfold next_id. induction ids as [|i ids IH]; [by intros ?%elem_of_nil|].
  intros [->|Hin]%elem_of_cons; cbn; [lia|]. specialize (IH Hin). lia.
Qed.

Lemma next_id_fresh (ids : list Z) : next_id ids ∉ ids.
Proof. intros Hin%next_id_above. lia. Qed.

(** Rows are identified by their id under the primary key. *)
Lemma progress_id_inj (db : database) (p q : progress_row) :
  progress_ids_unique db →
  p ∈ progress db → q ∈ progress db → progress_id p = progress_id q → p = q.
Proof.
  unfold progress_ids_unique. induction (progress db) as [|r rows IH]; cbn.
  { by intros _ ?%elem_of_nil. }
  intros [Hr Hrows]%NoDup_cons [->|Hp]%elem_of_cons [->|Hq]%elem_of_cons Hid.
  - done.
  - destruct Hr. rewrite Hid. by apply list_elem_of_fmap_2.
  - destruct Hr. rewrite <- Hid. by apply list_elem_of_fmap_2.
  - by apply IH.
Qed.

Lemma select_progress_key (db : database) (uid : Z) (subject : string) (row : progress_row) :
  select_progress db uid subject = Some row →
  row ∈ progress db ∧ progress_user_id row = uid ∧ progress_subject row = subject.
Proof.
  intros [Hin Hrow]%find_elem_of. split; [done|].
  apply andb_true_iff in Hrow as [Hu%Z.eqb_eq Hs%String.eqb_eq]. done.
Qed.

Lemma select_progress_insert
    (db : database) (uid : Z) (subject : string) (score : Z)
    (uid' : Z) (subject' : string) :
  select_progress (with_row db uid subject score) uid' subject'
  = match select_progress db uid' subject' with
    | Some row => Some row
    | None =>
        if Z.eqb uid uid' && String.eqb subject subject'
        then Some (mk_progress (next_id (progress_id <$> progress db)) uid subject score)
        else None
    end.
Proof.
  unfold select_progress, with_row. cbn [progress].
  rewrite find_app. destruct (find _ (progress db)); [done|]. cbn.
  by destruct (_ && _).
Qed.

Lemma select_progress_update
    (db : database) (score id : Z) (uid : Z) (subject : string) :
  select_progress (with_score db score id) uid subject
  = (λ p, if Z.eqb (progress_id p) id
          then mk_progress (progress_id p) (progress_user_id p)
                           (progress_subject p) score
          else p) <$> select_progress db uid subject.
Proof.
  unfold select_progress, with_score. cbn [progress].
  apply find_fmap. intros p. by destruct (Z.eqb (progress_id p) id).
Qed.

Lemma with_row_ids_unique (db : database) (uid : Z) (subject : string) (score : Z) :
  progress_ids_unique db → progress_ids_unique (with_row db uid subject score).
Proof.
  unfold progress_ids_unique, with_row. cbn [progress]. intros Hids.
  rewrite fmap_app. apply NoDup_app. split_and!; [done | | apply NoDup_singleton].
  intros id Hid ->%list_elem_of_singleton. by apply next_id_fresh in Hid.
Qed.

Lemma with_score_ids_unique (db : database) (score id : Z) :
  progress_ids_unique db → progress_ids_unique (with_score db score id).
Proof.
  unfold progress_ids_unique, with_score. cbn [progress].
  rewrite <- list_fmap_compose.
  assert (Heq : progress_id ∘ (λ p, if Z.eqb (progress_id p) id
                    then mk_progress (progress_id p) (progress_user_id p)
                                     (progress_subject p) score
                    else p) <$> progress db = progress_id <$> progress db).
  { apply list_fmap_ext. intros _ p _. cbn. by destruct (Z.eqb (progress_id p) id). }
  by rewrite Heq.
Qed.

(** ** /api/progress *)



Lemma select_progress_None (db : database) (uid : Z) (subject : string) :
  select_progress db uid subject = None →
  (uid, subject) ∉ (λ p, (progress_user_id p, progress_subject p)) <$> progress db.
Proof.
  unfold select_progress. intros Hnone (row & [= -> ->] & Hin%list_elem_of_In)%list_elem_of_fmap.
  pose proof (find_none _ _ Hnone row Hin) as Hrow. cbv beta in Hrow.
  by rewrite Z.eqb_refl, String.eqb_refl in Hrow.
Qed.




Lemma stored_score_with_row (db : database) (uid : Z) (subject : string) (score : Z) :
  stored_score db uid subject = None →
  stored_score (with_row db uid subject score) uid subject = Some score.
Proof.
  unfold stored_score. rewrite select_progress_insert.
  destruct (select_progress db uid subject); [done|]. intros _.
  by rewrite Z.eqb_refl, String.eqb_refl.
Qed.

Lemma with_score_keys (db : database) (score id : Z) :
  (λ p, (progress_user_id p, progress_subject p)) <$> progress (with_score db score id)
  = (λ p, (progress_user_id p, progress_subject p)) <$> progress db.
Proof.
  unfold with_score. cbn [progress]. rewrite <- list_fmap_compose.
  apply list_fmap_ext. intros _ p _. cbn. by destruct (Z.eqb (progress_id p) id).
Qed.

Lemma update_progress_anonymous (data : progress_body) (st : state) :
  session_user_id (st_session st) = None →
  update_progress data st = (st, unauthorized).
Proof. unfold update_progress. by intros ->. Qed.

(** The three paths of a logged-in report. *)
Lemma update_progress_insert (data : progress_body) (st : state) (uid : Z) :
  session_user_id (st_session st) = Some uid →
  select_progress (st_db st) uid (body_subject data) = None →
  update_progress data st
  = if int64 (body_score data)
    then (mk_state (with_row (st_db st) uid (body_subject data) (body_score data))
                   (st_session st), success_true)
    else (st, uncaught).
Proof.
  unfold update_progress, insert_progress. intros -> ->.
  by destruct (int64 _).
Qed.

Lemma update_progress_raise
    (data : progress_body) (st : state) (uid : Z) (row : progress_row) :
  session_user_id (st_session st) = Some uid →
  select_progress (st_db st) uid (body_subject data) = Some row →
  progress_score row < body_score data →
  update_progress data st
  = if int64 (body_score data)
    then (mk_state (with_score (st_db st) (body_score data) (progress_id row))
                   (st_session st), success_true)
    else (st, uncaught).
Proof.
  unfold update_progress, update_progress_score. intros -> -> Hlt.
  rewrite (proj2 (Z.gtb_lt _ _) Hlt). by destruct (int64 _).
Qed.

Lemma update_progress_keep
    (data : progress_body) (st : state) (uid : Z) (row : progress_row) :
  session_user_id (st_session st) = Some uid →
  select_progress (st_db st) uid (body_subject data) = Some row →
  body_score data ≤ progress_score row →
  update_progress data st = (st, success_true).
Proof.
  unfold update_progress. intros -> -> Hle.
  assert ((body_score data >? progress_score row) = false) as ->.
  { rewrite Z.gtb_ltb. by apply Z.ltb_ge. }
  by destruct st.
Qed.

(** What one report does to the database: nothing, an insertion for a key
    the query did not find, or a higher score for the row it found. *)
Lemma update_progress_db_cases (data : progress_body) (st : state) :
  (update_progress data st).1 = st
  ∨ (∃ uid,
       session_user_id (st_session st) = Some uid
       ∧ select_progress (st_db st) uid (body_subject data) = None
       ∧ int64 (body_score data) = true
       ∧ (update_progress data st).1
         = mk_state (with_row (st_db st) uid (body_subject data) (body_score data))
                    (st_session st))
  ∨ (∃ uid row,
       session_user_id (st_session st) = Some uid
       ∧ select_progress (st_db st) uid (body_subject data) = Some row
       ∧ progress_score row < body_score data
       ∧ int64 (body_score data) = true
       ∧ (update_progress data st).1
         = mk_state (with_score (st_db st) (body_score data) (progress_id row))
                    (st_session st)).
Proof.
  destruct (session_user_id (st_session st)) as [uid|] eqn:Hs;
    [|left; by rewrite update_progress_anonymous].
  destruct (select_progress (st_db st) uid (body_subject data)) as [row|] eqn:Hrow.
  - destruct (Z.lt_ge_cases (progress_score row) (body_score data)) as [Hlt|Hge].
    + rewrite (update_progress_raise _ _ _ _ Hs Hrow Hlt).
      destruct (int64 _) eqn:Hfits; [|by left].
      right; right. by exists uid, row.
    + left. by rewrite (update_progress_keep _ _ _ _ Hs Hrow Hge).
  - rewrite (update_progress_insert _ _ _ Hs Hrow).
    destruct (int64 _) eqn:Hfits; [|by left].
    right; left. by exists uid.
Qed.

(** A score that does not fit 64 bits changes nothing, whether it is
    refused or merely not better. *)
Lemma update_progress_out_of_range (data : progress_body) (st : state) :
  int64 (body_score data) = false → (update_progress data st).1 = st.
Proof.
  intros Hfits.
  destruct (update_progress_db_cases data st)
    as [?|[(uid & _ & _ & ? & _)|(uid & row & _ & _ & _ & ? & _)]];
    [done | congruence | congruence].
Qed.

Lemma update_progress_keeps_users (data : progress_body) (st : state) :
  user (st_db (update_progress data st).1) = user (st_db st)
  ∧ st_session (update_progress data st).1 = st_session st.
Proof.
  destruct (update_progress_db_cases data st)
    as [->|[(uid & _ & _ & _ & ->)|(uid & row & _ & _ & _ & _ & ->)]]; done.
Qed.

Lemma update_progress_ids_unique (data : progress_body) (st : state) :
  progress_ids_unique (st_db st) →
  progress_ids_unique (st_db (update_progress data st).1).
Proof.
  intros Hids.
  destruct (update_progress_db_cases data st)
    as [->|[(uid & _ & _ & _ & ->)|(uid & row & _ & _ & _ & _ & ->)]];
    [done | by apply with_row_ids_unique | by apply with_score_ids_unique].
Qed.

Lemma update_progress_keys_unique (data : progress_body) (st : state) :
  progress_keys_unique (st_db st) →
  progress_keys_unique (st_db (update_progress data st).1).
Proof.
  intros Hkeys.
  destruct (update_progress_db_cases data st)
    as [->|[(uid & _ & Hnone & _ & ->)|(uid & row & _ & _ & _ & _ & ->)]];
    [done | |].
  - unfold progress_keys_unique, with_row. cbn [st_db progress].
    rewrite fmap_app. apply NoDup_app. split_and!; [done | | apply NoDup_singleton].
    intros key Hkey ->%list_elem_of_singleton.
    by apply select_progress_None in Hnone.
  - unfold progress_keys_unique. cbn [st_db]. by rewrite with_score_keys.
Qed.

(** The stored score of the reporting user for the reported subject after
    a report that fits 64 bits. *)
Lemma update_progress_own_key (data : progress_body) (st : state) (uid : Z) :
  session_user_id (st_session st) = Some uid →
  int64 (body_score data) = true →
  stored_score (st_db (update_progress data st).1) uid (body_subject data)
  = Some (merge_score (stored_score (st_db st) uid (body_subject data))
                      (body_score data)).
Proof.
  intros Hs Hfits. unfold stored_score at 2.
  destruct (select_progress (st_db st) uid (body_subject data)) as [row|] eqn:Hrow;
    cbn [fmap option_fmap option_map merge_score].
  - destruct (Z.lt_ge_cases (progress_score row) (body_score data)) as [Hlt|Hge].
    + rewrite (update_progress_raise _ _ _ _ Hs Hrow Hlt), Hfits. cbn [fst st_db].
      unfold stored_score. rewrite select_progress_update, Hrow. cbn.
      rewrite Z.eqb_refl. cbn. f_equal. lia.
    + rewrite (update_progress_keep _ _ _ _ Hs Hrow Hge). cbn [fst].
      unfold stored_score. rewrite Hrow. cbn. f_equal. lia.
  - rewrite (update_progress_insert _ _ _ Hs Hrow), Hfits. cbn [fst st_db].
    apply stored_score_with_row. unfold stored_score. by rewrite Hrow.
Qed.

(** The stored scores of all other (user, subject). *)
Lemma update_progress_other_key
    (data : progress_body) (st : state) (uid : Z) (uid' : Z) (subject' : string) :
  progress_ids_unique (st_db st) →
  session_user_id (st_session st) = Some uid →
  ¬ (uid' = uid ∧ subject' = body_subject data) →
  stored_score (st_db (update_progress data st).1) uid' subject'
  = stored_score (st_db st) uid' subject'.
Proof.
  intros Hids Hs Hother.
  destruct (update_progress_db_cases data st)
    as [->|[(caller & Hcaller & Hnone & _ & ->)|(caller & row & Hcaller & Hrow & _ & _ & ->)]];
    [done | |]; cbn [st_db]; unfold stored_score;
    assert (caller = uid) as -> by congruence.
  - rewrite select_progress_insert.
    destruct (select_progress (st_db st) uid' subject'); [done|].
    destruct (Z.eqb_spec uid uid') as [<-|_]; [|done].
    destruct (String.eqb_spec (body_subject data) subject') as [<-|_]; [|done].
    by destruct Hother.
  - rewrite select_progress_update.
    destruct (select_progress (st_db st) uid' subject') as [mine|] eqn:Hmine; [|done].
    cbn. destruct (Z.eqb_spec (progress_id mine) (progress_id row)) as [Hid|_]; [|done].
    apply select_progress_key in Hrow as (Hrow & Hu & Hsub).
    apply select_progress_key in Hmine as (Hmine & Hu' & Hsub').
    rewrite (progress_id_inj _ _ _ Hids Hmine Hrow Hid) in Hu', Hsub'.
    destruct Hother. by rewrite <- Hu', <- Hsub'.
Qed.

(** One request never lowers a stored score, of whatever user and subject
    it is. *)
Lemma update_progress_monotone
    (data : progress_body) (st : state) (uid : Z) (subject : string) (old : Z) :
  progress_ids_unique (st_db st) →
  stored_score (st_db st) uid subject = Some old →
  ∃ new, stored_score (st_db (update_progress data st).1) uid subject = Some new
         ∧ old ≤ new.
Proof.
  intros Hids Hold.
  destruct (session_user_id (st_session st)) as [caller|] eqn:Hs;
    [|rewrite (update_progress_anonymous _ _ Hs); by exists old].
  destruct (decide (uid = caller ∧ subject = body_subject data)) as [[-> ->]|Hother].
  - destruct (int64 (body_score data)) eqn:Hfits.
    + rewrite (update_progress_own_key _ _ _ Hs Hfits), Hold. cbn.
      eexists. split; [done | lia].
    + rewrite (update_progress_out_of_range _ _ Hfits). by exists old.
  - rewrite (update_progress_other_key _ _ caller _ _ Hids Hs Hother). by exists old.
Qed.







(** C4, as claimed, fails: a logged-in user can have a score recorded for a
    subject that the catalogue does not know (the quiz endpoint answers 404
    for it). *)
Lemma progress_recorded_for_unknown_subject :
  let st := mk_state Sample.db1 Sample.as_alice in
  let data := mk_progress_body "astrology" 10 in
  Sample.quizzes !! "astrology" = None
  ∧ get_quiz (Catalog Sample.quizzes) "astrology" st = quiz_not_found
  ∧ (update_progress data st).2 = success_true
  ∧ progress (st_db (update_progress data st).1) = [mk_progress 1 1 "astrology" 10].
Proof.
  intros st data.
  assert (Hunknown : Sample.quizzes !! "astrology" = None).
  { unfold Sample.quizzes. by apply lookup_singleton_ne. }
  split_and!; [done | | done | done].
  unfold get_quiz. cbn. by rewrite Hunknown.
Qed.

(** C4, amended. /api/progress does not consult the catalogue. Under the
    primary key of [progress], every row of the table after a request is a
    row that was there before, or carries the user of the session and the
    subject and score of the request: a record's subject is the string the
    request sent, catalogue key or not. *)
Theorem update_progress_subjects (data : progress_body) (st : state) :
  progress_ids_unique (st_db st) →
  ∀ row, row ∈ progress (st_db (update_progress data st).1) →
    row ∈ progress (st_db st)
    ∨ (session_user_id (st_session st) = Some (progress_user_id row)
       ∧ progress_subject row = body_subject data
       ∧ progress_score row = body_score data).
Proof.
  intros Hids row.
  destruct (update_progress_db_cases data st)
    as [->|[(uid & Hs & _ & _ & ->)|(uid & found & Hs & Hfound & _ & _ & ->)]];
    cbn [st_db with_row with_score progress].
  - by left.
  - intros [Hrow | ->%list_elem_of_singleton]%elem_of_app; [by left | by right].
  - intros (row0 & -> & Hrow0)%list_elem_of_fmap.
    destruct (Z.eqb_spec (progress_id row0) (progress_id found)) as [Hid|_]; [|by left].
    apply select_progress_key in Hfound as (Hfound & Hu & Hsub).
    rewrite (progress_id_inj _ _ _ Hids Hrow0 Hfound Hid). right. cbn.
    by rewrite Hu.
Qed.

Lemma update_progress_subjects_witness :
  Forall (λ row, progress_subject row = "astrology")
         (progress (st_db (update_progress (mk_progress_body "astrology" 10)
                             (mk_state Sample.db1 Sample.as_alice)).1)).
Proof.
  apply Forall_forall. intros row Hrow.
  destruct (update_progress_subjects (mk_progress_body "astrology" 10)
              (mk_state Sample.db1 Sample.as_alice) ltac:(apply NoDup_nil_2) row Hrow)
    as [?%elem_of_nil|(_ & Hsubject & _)]; [done | exact Hsubject].
Defined.

(** * Further properties of the handlers *)

(** ** Login and the session *)

(** X1. A login that finds the nickname and passes the password check binds
    the session to the id and nickname of the row found, whatever the
    session held before (a user already logged in as somebody else
    included); the database is untouched and [check_session] then reports a
    logged-in user. *)
Theorem login_binds_session
    (check_password_hash : string → string → bool)
    (data : login_body) (st : state) (row : user_row) (password : string) :
  select_user_by_nickname (st_db st) (login_nickname data) = Some row →
  login_password data = Some password →
  check_password_hash (user_password row) password = true →
  let st' := (login check_password_hash data st).1 in
  (login check_password_hash data st).2 = success_true
  ∧ st_session st' = mk_session (Some (user_id row)) (Some (user_nickname row))
  ∧ Some (user_nickname row) = login_nickname data
  ∧ st_db st' = st_db st
  ∧ check_session st' = jsonify (JObj (dict [("logged_in", JBool true)])).
Proof.
  intros Hrow Hpassword Hcheck. cbv zeta. unfold login.
  rewrite Hrow, Hpassword, Hcheck. cbn [fst snd].
  split_and!; try done.
  apply find_some in Hrow as [_ Hnick].
  destruct (login_nickname data) as [nickname|]; [|done].
  apply String.eqb_eq in Hnick. by rewrite Hnick.
Qed.

Lemma login_binds_session_witness :
  let st := mk_state Sample.db1 Sample.as_ghost in
  st_session (login Sample.check (mk_login_body (Some "alice") (Some "s3cret")) st).1
  = Sample.as_alice.
Proof.
  intros st.
  by destruct (login_binds_session Sample.check
                 (mk_login_body (Some "alice") (Some "s3cret")) st Sample.alice
                 "s3cret" eq_refl eq_refl eq_refl)
    as (_ & -> & _).
Defined.

Lemma select_user_by_nickname_None (db : database) :
  select_user_by_nickname db None = None.
Proof.
  unfold select_user_by_nickname. by induction (user db) as [|u users IH].
Qed.

(** X2. A login body without a nickname is refused with the 401, whoever is
    registered and whatever the password: the query compares with NULL and
    finds no row. State and session stay as they were. *)
Theorem login_without_nickname
    (check_password_hash : string → string → bool)
    (password : option string) (st : state) :
  login check_password_hash (mk_login_body None password) st = (st, login_failed)
  ∧ login_failed.1 = 401.
Proof.
  unfold login. cbn [login_nickname]. by rewrite select_user_by_nickname_None.
Qed.

(** A refused login does not log anybody out, and an accepted one changes
    neither table; [logout] changes neither table. *)
Lemma login_keeps_db
    (check_password_hash : string → string → bool) (data : login_body) (st : state) :
  st_db (login check_password_hash data st).1 = st_db st.
Proof.
  unfold login. destruct (select_user_by_nickname _ _) as [row|]; [|done].
  destruct (login_password data) as [password|]; [|done].
  by destruct (check_password_hash _ _).
Qed.

(** ** Registration and the user table *)

Lemma truthy_Some (v : option string) :
  truthy v = true → ∃ s, v = Some s ∧ s ≠ "".
Proof.
  destruct v as [s|]; [|done]. cbn. intros Hs%negb_true_iff%String.eqb_neq. eauto.
Qed.

Lemma register_passed_validation (data : register_body) :
  forallb truthy [body_fullName data; body_email data;
                  body_nickname data; body_password data] = true →
  ∃ fullName email nickname password, filled data fullName email nickname password.
Proof.
  unfold forallb. rewrite !andb_true_iff.
  intros ((fn & Hfn & ?)%truthy_Some & (em & Hem & ?)%truthy_Some
          & (nk & Hnk & ?)%truthy_Some & (pw & Hpw & ?)%truthy_Some & _).
  exists fn, em, nk, pw. destruct data. cbn in *. by subst.
Qed.

Section Register.

Variable generate_password_hash : string → string → string.

Lemma register_conflict (salt : string) (data : register_body) (st : state)
    (fullName email nickname password : string) :
  filled data fullName email nickname password →
  already_used (st_db st) nickname email →
  register generate_password_hash salt data st
  = (st, (409, Json (JObj (dict [("success", JBool false);
                                 ("message", JStr "Ce pseudo ou cet email est déjà utilisé.")])))).
Proof.
  intros (-> & Hf & He & Hn & Hp) [row Hrow]%select_user_by_nickname_or_email_Some.
  unfold register. cbv zeta.
  cbn [body_fullName body_email body_nickname body_password].
  by rewrite (register_passes_validation _ _ _ _ Hf He Hn Hp), Hrow.
Qed.

Lemma register_inserts (salt : string) (data : register_body) (st : state)
    (fullName email nickname password : string) :
  filled data fullName email nickname password →
  ¬ already_used (st_db st) nickname email →
  (register generate_password_hash salt data st).1
  = mk_state (insert_user (st_db st) fullName email nickname
                          (generate_password_hash salt password))
             (st_session st).
Proof.
  intros (-> & Hf & He & Hn & Hp) Hfree.
  unfold register. cbv zeta.
  cbn [body_fullName body_email body_nickname body_password].
  rewrite (register_passes_validation _ _ _ _ Hf He Hn Hp). cbn [negb].
  destruct (select_user_by_nickname_or_email _ _ _) as [row|] eqn:Hrow; [|done].
  destruct Hfree. apply select_user_by_nickname_or_email_Some. eauto.
Qed.

(** What a registration does to the state: nothing, or the insertion of
    the row of a filled body whose nickname and email were free. *)
Lemma register_cases (salt : string) (data : register_body) (st : state) :
  (register generate_password_hash salt data st).1 = st
  ∨ ∃ fullName email nickname password,
      filled data fullName email nickname password
      ∧ ¬ already_used (st_db st) nickname email
      ∧ (register generate_password_hash salt data st).1
        = mk_state (insert_user (st_db st) fullName email nickname
                                (generate_password_hash salt password))
                   (st_session st).
Proof.
  destruct (forallb truthy [body_fullName data; body_email data;
                            body_nickname data; body_password data]) eqn:Hvalid.
  - apply register_passed_validation in Hvalid as (fn & em & nk & pw & Hfilled).
    destruct (select_user_by_nickname_or_email (st_db st) (Some nk) (Some em))
      as [row|] eqn:Hrow.
    + left. erewrite register_conflict; [done | done |].
      apply select_user_by_nickname_or_email_Some. eauto.
    + right. exists fn, em, nk, pw.
      assert (Hfree : ¬ already_used (st_db st) nk em).
      { intros [row Hrow']%select_user_by_nickname_or_email_Some. congruence. }
      split_and!; [done | done | by apply register_inserts].
  - left. unfold register. cbv zeta. by rewrite Hvalid.
Qed.

End Register.

Lemma not_already_used (db : database) (nickname email : string) :
  ¬ already_used db nickname email
  ↔ (nickname ∉ user_nickname <$> user db) ∧ (email ∉ user_email <$> user db).
Proof.
  unfold already_used. rewrite !list_elem_of_fmap. split.
  - intros Hfree. split; intros (u & -> & Hu); apply Hfree; exists u; auto.
  - intros [Hn He] (u & Hu & [<-|<-]); [apply Hn | apply He]; eauto.
Qed.

Lemma insert_user_unique (db : database) (fullName email nickname password : string) :
  users_unique db →
  ¬ already_used db nickname email →
  users_unique (insert_user db fullName email nickname password).
Proof.
  intros (Hids & Hnicks & Hemails) [Hn He]%not_already_used.
  unfold users_unique, insert_user. cbn [user]. rewrite !fmap_app. cbn.
  split_and!; apply NoDup_app; (split_and!; [done | | apply NoDup_singleton]).
  - intros id Hid ->%list_elem_of_singleton. by apply next_id_fresh in Hid.
  - by intros nk Hnk ->%list_elem_of_singleton.
  - by intros em Hem ->%list_elem_of_singleton.
Qed.






(** ** The best score per (user, subject) *)






(** ** The profile of /api/data *)

Lemma dict_snoc (l : list (string * json)) (k : string) (v : json) :
  dict (l ++ [(k, v)]) = <[k := v]> (dict l).
Proof. unfold dict. by rewrite foldl_app. Qed.

Lemma dict_lookup_None (l : list (string * json)) (k : string) :
  k ∉ l.*1 → dict l !! k = None.
Proof.
  induction l as [|[k' v'] l IH] using rev_ind; [done|].
  rewrite fmap_app, dict_snoc. cbn. intros Hk.
  rewrite lookup_insert_ne.
  - apply IH. intros Hin. apply Hk, elem_of_app. by left.
  - intros ->. apply Hk, elem_of_app. right. apply list_elem_of_here.
Qed.

Lemma dict_lookup_Some (l : list (string * json)) (k : string) (v : json) :
  NoDup l.*1 → (k, v) ∈ l → dict l !! k = Some v.
Proof.
  induction l as [|[k' v'] l IH] using rev_ind; [by intros _ ?%elem_of_nil|].
  rewrite fmap_app, dict_snoc. cbn.
  intros (Hnodup & Hfresh & _)%NoDup_app [Hin | [= -> ->]%list_elem_of_singleton]%elem_of_app.
  - rewrite lookup_insert_ne; [by apply IH|].
    intros ->. apply (Hfresh k); [|apply list_elem_of_here].
    by apply (list_elem_of_fmap_2 fst _ (k, v)).
  - by rewrite lookup_insert_eq.
Qed.

Lemma select_progress_of_subjects (db : database) (uid : Z) :
  progress_keys_unique db →
  NoDup (progress_subject <$> select_progress_of db uid).
Proof.
  unfold progress_keys_unique, select_progress_of.
  induction (progress db) as [|p rows IH]; [intros _; apply NoDup_nil_2|].
  rewrite fmap_cons. intros [Hp Hrows]%NoDup_cons. rewrite filter_cons.
  case_decide as Hu; [|by apply IH].
  rewrite fmap_cons. apply NoDup_cons. split; [|by apply IH].
  intros (q & Hsub & [Hq Hin]%list_elem_of_filter)%list_elem_of_fmap.
  apply Hp. apply list_elem_of_fmap. exists q. split; [|done].
  by rewrite Hsub, Hu, Hq.
Qed.

(** The progress mapping of a profile agrees with the store. *)
Lemma progress_dict_lookup (db : database) (uid : Z) (subject : string) :
  progress_keys_unique db →
  dict ((λ item, (progress_subject item, JNum (progress_score item)))
          <$> select_progress_of db uid) !! subject
  = JNum <$> stored_score db uid subject.
Proof.
  intros Hkeys. unfold stored_score.
  destruct (select_progress db uid subject) as [row|] eqn:Hrow; cbn.
  - apply select_progress_key in Hrow as (Hin & Hu & <-).
    apply dict_lookup_Some.
    + rewrite <- list_fmap_compose. by apply select_progress_of_subjects.
    + apply list_elem_of_fmap. exists row. split; [done|].
      by apply list_elem_of_filter.
  - apply dict_lookup_None. rewrite <- list_fmap_compose.
    intros (q & Hsub & [Hq Hin]%list_elem_of_filter)%list_elem_of_fmap.
    apply (select_progress_None _ _ _ Hrow). apply list_elem_of_fmap.
    exists q. split; [|done]. cbn in Hsub. by rewrite Hsub, Hq.
Qed.

Lemma select_user_by_id_Some (db : database) (uid : Z) (row : user_row) :
  select_user_by_id db uid = Some row → row ∈ user db ∧ user_id row = uid.
Proof. intros [Hin Hid%Z.eqb_eq]%find_elem_of. done. Qed.

Lemma get_user_data_found (st : state) (uid : Z) (row : user_row) :
  session_user_id (st_session st) = Some uid →
  select_user_by_id (st_db st) uid = Some row →
  get_user_data st
  = Some (JObj (dict [("id", JNum uid);
                      ("fullName", JStr (user_full_name row));
                      ("email", JStr (user_email row));
                      ("nickname", JStr (user_nickname row));
                      ("progress",
                       JObj (dict ((λ item, (progress_subject item,
                                             JNum (progress_score item)))
                                     <$> select_progress_of (st_db st) uid)))])).
Proof.
  intros Hs Hrow.
  pose proof (select_user_by_id_Some _ _ _ Hrow) as [_ <-].
  unfold get_user_data. by rewrite Hs, Hrow.
Qed.

(** X7. The profile of a logged-in user whose row exists: a dict with exactly
    the keys id, fullName, email, nickname and progress, filled from the
    row the session's id selects, so the password hash is never part of it;
    under one row per (user, subject), its progress mapping gives for each
    subject the stored score of that user and nothing for a subject
    without one. /api/data serves this profile as its [user] field
    whenever the course listing can be built. *)
Theorem get_user_data_profile
    (f : catalog_file) (st : state) (uid : Z) (row : user_row) :
  session_user_id (st_session st) = Some uid →
  select_user_by_id (st_db st) uid = Some row →
  ∃ o p,
    get_user_data st = Some (JObj o)
    ∧ dom o = {[ "id"; "fullName"; "email"; "nickname"; "progress" ]}
    ∧ o !! "password" = None
    ∧ o !! "id" = Some (JNum uid)
    ∧ o !! "fullName" = Some (JStr (user_full_name row))
    ∧ o !! "email" = Some (JStr (user_email row))
    ∧ o !! "nickname" = Some (JStr (user_nickname row))
    ∧ o !! "progress" = Some (JObj p)
    ∧ (progress_keys_unique (st_db st) →
       ∀ subject, p !! subject = JNum <$> stored_score (st_db st) uid subject)
    ∧ (∀ courses, get_all_courses_info f = Ok courses →
       get_app_data f st
       = (200, Json (JObj (dict [("user", JObj o); ("courses", JObj courses)])))).
Proof.
  intros Hs Hrow.
  unfold get_app_data. rewrite (logged_in_Some _ _ Hs). cbn [negb].
  rewrite (get_user_data_found _ _ _ Hs Hrow).
  eexists _, _. split; [reflexivity|]. unfold dict at 1 3 4 5 6 7 8 9. cbn [foldl fst snd].
  split_and!; try by simplify_map_eq.
  - intros Hkeys subject. by apply progress_dict_lookup.
  - intros courses ->. done.
Qed.

Lemma get_user_data_profile_witness :
  let st := mk_state (mk_db [Sample.alice] [mk_progress 1 1 "math" 50])
                     Sample.as_alice in
  ∃ o p, get_user_data st = Some (JObj o)
         ∧ o !! "password" = None
         ∧ o !! "progress" = Some (JObj p)
         ∧ p !! "math" = Some (JNum 50)
         ∧ p !! "history" = None.
Proof.
  intros st.
  destruct (get_user_data_profile (Catalog ∅) st 1 Sample.alice eq_refl eq_refl)
    as (o & p & Hprofile & _ & Hpassword & _ & _ & _ & _ & Hprogress & Hscores & _).
  exists o, p. split_and!; [exact Hprofile | exact Hpassword | exact Hprogress | |].
  - rewrite Hscores; [reflexivity | apply NoDup_singleton].
  - rewrite Hscores; [reflexivity | apply NoDup_singleton].
Defined.



(** ** The catalogue *)

(** X9. The summary of an entry has exactly the keys title, description,
    emoji, professor and pdf_link, and each of them that the entry carries
    is copied unchanged, whatever JSON value it holds; every other key of
    the entry is dropped. *)
Theorem course_summary_copies_fields
    (quizzes : gmap string json) (subject : string) (data : gmap string json) :
  entries_are_dicts quizzes →
  quizzes !! subject = Some (JObj data) →
  ∃ courses summary,
    get_all_courses_info (Catalog quizzes) = Ok courses
    ∧ courses !! subject = Some (JObj summary)
    ∧ dom summary = {[ "title"; "description"; "emoji"; "professor"; "pdf_link" ]}
    ∧ ∀ key value,
        key ∈ ["title"; "description"; "emoji"; "professor"; "pdf_link"] →
        data !! key = Some value →
        summary !! key = Some value.
Proof.
  intros Hdicts Hentry.
  destruct (course_info_lookup data)
    as (summary & Hsummary & Htitle & Hdescr & Hemoji & Hprof & Hpdf & Hdom).
  exists (omap (λ data, course_info <$> as_dict data) quizzes), summary.
  split_and!.
  - by apply get_all_courses_info_Ok.
  - rewrite courses_lookup, Hentry. cbn. by rewrite Hsummary.
  - exact Hdom.
  - intros key value Hkey Hvalue.
    repeat (apply elem_of_cons in Hkey as [->|Hkey]);
      [rewrite Htitle | rewrite Hdescr | rewrite Hemoji | rewrite Hprof
       | rewrite Hpdf | by apply elem_of_nil in Hkey];
      by rewrite (dict_get_present _ _ _ _ Hvalue).
Qed.

Lemma course_summary_copies_fields_witness :
  ∃ courses summary,
    get_all_courses_info (Catalog Sample.quizzes) = Ok courses
    ∧ courses !! "math" = Some (JObj summary)
    ∧ summary !! "title" = Some (JStr "Maths").
Proof.
  destruct (course_summary_copies_fields Sample.quizzes "math"
              (dict [("title", JStr "Maths"); ("questions", Sample.math_questions)]))
    as (courses & summary & Hok & Hsummary & _ & Hcopy).
  - by apply map_Forall_singleton.
  - reflexivity.
  - exists courses, summary. split_and!; [exact Hok | exact Hsummary |].
    apply Hcopy; [apply list_elem_of_here|]. unfold dict. cbn [foldl fst snd].
    rewrite lookup_insert_ne by discriminate. apply lookup_insert_eq.
Defined.

Lemma get_all_courses_info_not_dicts (quizzes : gmap string json) :
  ¬ entries_are_dicts quizzes →
  get_all_courses_info (Catalog quizzes) = Raise AttributeError.
Proof.
  intros Hbad. unfold get_all_courses_info. cbn.
  by rewrite bool_decide_eq_false_2.
Qed.

(** X10. When the listing cannot be built (no file, a file that is not JSON, or
    a catalogue with an entry that is not a dict), /api/courses answers
    500, and so does /api/data for a logged-in user. Only the missing file
    under /api/courses gets the JSON error body; every other case, the
    missing file under /api/data included, is Flask's own 500 page. One
    entry that is not a dict thus takes the whole listing down. *)
Theorem listing_failures (f : catalog_file) (st : state) :
  ¬ (∃ quizzes, f = Catalog quizzes ∧ entries_are_dicts quizzes) →
  (get_courses f).1 = 500
  ∧ (get_courses f = catalog_not_found ↔ f = FileMissing)
  ∧ (f ≠ FileMissing → get_courses f = uncaught)
  ∧ (logged_in (st_session st) = true → get_app_data f st = uncaught).
Proof.
  intros Hbad. unfold get_courses, get_app_data.
  destruct f as [| |quizzes].
  - cbn. split_and!; [done | done | done | by intros ->].
  - cbn. split_and!; [done | done | done | by intros ->].
  - rewrite get_all_courses_info_not_dicts by (intros ?; apply Hbad; eauto).
    split_and!; [done | done | done | by intros ->].
Qed.

Lemma listing_failures_witness :
  get_courses (Catalog {[ "math" := JStr "soon" ]}) = uncaught
  ∧ get_courses FileMissing = catalog_not_found
  ∧ get_app_data FileMissing (mk_state Sample.db1 Sample.as_alice) = uncaught.
Proof.
  split_and!.
  - apply (listing_failures (Catalog {[ "math" := JStr "soon" ]})
             (mk_state Sample.db1 Sample.as_alice)); [|done].
    intros (quizzes & [= <-] & Hdicts).
    destruct (Hdicts "math" (JStr "soon")) as [d Hd]; [|done].
    apply lookup_singleton_eq.
  - by apply (listing_failures FileMissing (mk_state Sample.db1 Sample.as_alice));
      [intros (quizzes & [=] & _)|].
  - by apply (listing_failures FileMissing (mk_state Sample.db1 Sample.as_alice));
      [intros (quizzes & [=] & _)|].
Defined.

(** X11. A subject that is a key of the catalogue is answered with a 200 exactly
    when its entry is a dict carrying [questions]; an entry that is not a
    dict, or has no [questions], ends in Flask's 500 page, not in the 404
    of an unknown subject. *)
Theorem get_quiz_known_subject
    (quizzes : gmap string json) (subject : string) (st : state) (entry : json) :
  logged_in (st_session st) = true →
  quizzes !! subject = Some entry →
  ((get_quiz (Catalog quizzes) subject st).1 = 200
   ↔ ∃ d questions, entry = JObj d ∧ d !! "questions" = Some questions)
  ∧ (¬ (∃ d questions, entry = JObj d ∧ d !! "questions" = Some questions) →
     get_quiz (Catalog quizzes) subject st = uncaught).
Proof.
  intros Hin Hentry. unfold get_quiz. rewrite Hin. cbn. rewrite Hentry. cbn.
  destruct entry as [| | | | |d]; cbn;
    try (split; [split; [done | by intros (? & ? & [=] & _)] | done]).
  destruct (d !! "questions") as [questions|] eqn:Hq; cbn.
  - split; [split; [eauto | done] | intros Hno; destruct Hno; eauto].
  - split; [split; [done|] | done].
    intros (d' & q & [= <-] & Hq'). congruence.
Qed.

Lemma get_quiz_known_subject_witness :
  get_quiz (Catalog {[ "math" := JObj ∅ ]}) "math"
    (mk_state Sample.db1 Sample.as_alice) = uncaught.
Proof.
  apply (get_quiz_known_subject {[ "math" := JObj ∅ ]} "math"
           (mk_state Sample.db1 Sample.as_alice) (JObj ∅)).
  - reflexivity.
  - apply lookup_singleton_eq.
  - intros (d & questions & [= <-] & Hq). by rewrite lookup_empty in Hq.
Defined.

(** ** Any sequence of requests *)

Section Serve.

Variable generate_password_hash : string → string → string.
Variable check_password_hash : string → string → bool.
Variable f : catalog_file.

(** What one request can do to the database: nothing, the insertion of a
    user whose nickname and email were free, or a progress report. *)
Lemma handle_db_cases (r : request) (st : state) :
  st_db (handle generate_password_hash check_password_hash f r st).1 = st_db st
  ∨ (∃ fullName email nickname password,
       ¬ already_used (st_db st) nickname email
       ∧ st_db (handle generate_password_hash check_password_hash f r st).1
         = insert_user (st_db st) fullName email nickname password)
  ∨ (∃ data,
       st_db (handle generate_password_hash check_password_hash f r st).1
       = st_db (update_progress data st).1).
Proof.
  destruct r as [salt data|data| | | | |subject|data]; cbn [handle fst];
    try by left.
  - destruct (register_cases generate_password_hash salt data st)
      as [->|(fn & em & nk & pw & _ & Hfree & ->)]; [by left|].
    right; left. by exists fn, em, nk, (generate_password_hash salt pw).
  - left. apply login_keeps_db.
  - right; right. by exists data.
Qed.

Lemma serve_cons (call : session * request) (calls : list (session * request))
    (db : database) :
  serve generate_password_hash check_password_hash f (call :: calls) db
  = serve generate_password_hash check_password_hash f calls
      (st_db (handle generate_password_hash check_password_hash f
                     call.2 (mk_state db call.1)).1).
Proof. reflexivity. Qed.

Lemma handle_invariant (r : request) (st : state) :
  db_invariant (st_db st) →
  db_invariant (st_db (handle generate_password_hash check_password_hash f r st).1).
Proof.
  intros (Husers & Hids & Hkeys).
  destruct (handle_db_cases r st)
    as [->|[(fn & em & nk & pw & Hfree & ->)|[data ->]]]; [done | |].
  - split_and!; [by apply insert_user_unique | done | done].
  - split_and!.
    + unfold users_unique.
      by rewrite (proj1 (update_progress_keeps_users data st)).
    + by apply update_progress_ids_unique.
    + by apply update_progress_keys_unique.
Qed.

Lemma handle_users_prefix (r : request) (st : state) :
  user (st_db st)
    `prefix_of` user (st_db (handle generate_password_hash check_password_hash f r st).1).
Proof.
  destruct (handle_db_cases r st)
    as [->|[(fn & em & nk & pw & _ & ->)|[data ->]]]; [done | |].
  - by apply prefix_app_r.
  - by rewrite (proj1 (update_progress_keeps_users data st)).
Qed.

Lemma handle_scores_monotone (r : request) (st : state)
    (uid : Z) (subject : string) (old : Z) :
  progress_ids_unique (st_db st) →
  stored_score (st_db st) uid subject = Some old →
  ∃ new,
    stored_score (st_db (handle generate_password_hash check_password_hash f r st).1)
                 uid subject = Some new
    ∧ old ≤ new.
Proof.
  intros Hids Hold.
  destruct (handle_db_cases r st)
    as [->|[(fn & em & nk & pw & _ & ->)|[data ->]]].
  - by exists old.
  - by exists old.
  - by apply update_progress_monotone.
Qed.

End Serve.

(** X12. The empty database satisfies, and every request of every endpoint
    preserves, the three uniqueness invariants: no two users share an id,
    a nickname or an email; no two progress rows share an id; there is at
    most one progress row per (user, subject). So they hold after any
    sequence of requests, whatever sessions the requests carry. *)
Theorem serve_invariant
    (generate_password_hash : string → string → string)
    (check_password_hash : string → string → bool)
    (f : catalog_file) (calls : list (session * request)) (db : database) :
  db_invariant (mk_db [] [])
  ∧ (db_invariant db →
     db_invariant (serve generate_password_hash check_password_hash f calls db)).
Proof.
  split.
  - repeat split; apply NoDup_nil_2.
  - revert db. induction calls as [|call calls IH]; intros db Hinv; [done|].
    rewrite serve_cons. by apply IH, handle_invariant.
Qed.

Lemma serve_invariant_witness :
  let bob :=
    mk_register_body (Some "Bob") (Some "bob@example.org") (Some "bob") (Some "pw") in
  db_invariant
    (serve Sample.hash Sample.check (Catalog Sample.quizzes)
       [(Sample.anonymous, PostRegister "NaCl" bob);
        (Sample.anonymous, PostRegister "NaCl" bob);
        (Sample.as_alice, PostProgress (mk_progress_body "math" 50));
        (Sample.as_alice, PostProgress (mk_progress_body "math" 60))]
       (mk_db [] [])).
Proof.
  intros bob.
  destruct (serve_invariant Sample.hash Sample.check (Catalog Sample.quizzes)
              [(Sample.anonymous, PostRegister "NaCl" bob);
               (Sample.anonymous, PostRegister "NaCl" bob);
               (Sample.as_alice, PostProgress (mk_progress_body "math" 50));
               (Sample.as_alice, PostProgress (mk_progress_body "math" 60))]
              (mk_db [] [])) as [Hempty Hkept].
  exact (Hkept Hempty).
Defined.

(** X13. No request updates or deletes a user: over any sequence of requests
    the [user] table only grows at its end, so every row that was there
    stays, unchanged and in place. *)
Theorem serve_users_append_only
    (generate_password_hash : string → string → string)
    (check_password_hash : string → string → bool)
    (f : catalog_file) (calls : list (session * request)) (db : database) :
  user db `prefix_of` user (serve generate_password_hash check_password_hash f calls db).
Proof.
  revert db. induction calls as [|call calls IH]; intros db; [done|].
  rewrite serve_cons. etrans; [|apply IH].
  apply (handle_users_prefix _ _ _ call.2 (mk_state db call.1)).
Qed.

(** X14. Over any sequence of requests of any endpoints (registrations, logins
    and logouts included), under the primary key of [progress], a stored
    score never decreases and never disappears. *)
Theorem serve_scores_monotone
    (generate_password_hash : string → string → string)
    (check_password_hash : string → string → bool)
    (f : catalog_file) (calls : list (session * request)) (db : database)
    (uid : Z) (subject : string) (old : Z) :
  progress_ids_unique db →
  stored_score db uid subject = Some old →
  ∃ new,
    stored_score (serve generate_password_hash check_password_hash f calls db)
                 uid subject = Some new
    ∧ old ≤ new.
Proof.
  revert db old. induction calls as [|call calls IH]; intros db old Hids Hold.
  { by exists old. }
  rewrite serve_cons.
  destruct (handle_scores_monotone generate_password_hash check_password_hash f
              call.2 (mk_state db call.1) uid subject old Hids Hold)
    as (mid & Hmid & Hle).
  assert (Hids' : progress_ids_unique
                    (st_db (handle generate_password_hash check_password_hash f
                                   call.2 (mk_state db call.1)).1)).
  { destruct (handle_db_cases generate_password_hash check_password_hash f
                call.2 (mk_state db call.1))
      as [->|[(fn & em & nk & pw & _ & ->)|[data ->]]]; [done | done |].
    by apply update_progress_ids_unique. }
  destruct (IH _ mid Hids' Hmid) as (new & Hnew & Hle').
  exists new. split; [done | lia].
Qed.

Lemma serve_scores_monotone_witness :
  let db := mk_db [Sample.alice] [mk_progress 1 1 "math" 50] in
  ∃ new,
    stored_score
      (serve Sample.hash Sample.check FileMissing
         [(Sample.as_alice, PostProgress (mk_progress_body "math" 20));
          (Sample.as_alice, GetLogout);
          (Sample.as_alice, PostProgress (mk_progress_body "math" 65))] db)
      1 "math" = Some new
    ∧ 50 ≤ new.
Proof.
  intros db.
  apply (serve_scores_monotone Sample.hash Sample.check FileMissing _ db 1 "math" 50).
  - apply NoDup_singleton.
  - reflexivity.
Defined.

(** ** The connection of a request *)

Lemma get_db_held (c : Connection.context) (db : nat) :
  Connection.g_db c = Some db → Connection.get_db c = (db, c).
Proof. unfold Connection.get_db. by intros ->. Qed.

Lemma get_db_holds (c : Connection.context) :
  Connection.g_db (Connection.get_db c).2 = Some (Connection.get_db c).1.
Proof. unfold Connection.get_db. by destruct (Connection.g_db c) eqn:Hg. Qed.

Lemma get_db_times_held (n : nat) (c : Connection.context) (db : nat) :
  Connection.g_db c = Some db → Connection.get_db_times n c = c.
Proof.
  intros Hg. induction n as [|n IH]; [done|]. cbn.
  by rewrite (get_db_held _ _ Hg).
Qed.

Lemma get_db_times_S (n : nat) (c : Connection.context) :
  Connection.get_db_times (S n) c = (Connection.get_db c).2.
Proof. cbn. apply (get_db_times_held _ _ _ (get_db_holds c)). Qed.

(** X15. However many times the view functions of a request call [get_db], the
    request opens one connection at most (none if they never call it),
    every call returns that same connection, and [close_db] at teardown
    closes it and empties [g]: if no connection was left open before the
    request, none is left open after it. With nothing in [g], [close_db]
    does nothing. *)
Theorem connection_lifecycle (n : nat) (c : Connection.context) :
  Connection.g_db c = None →
  let c' := Connection.close_db (Connection.get_db_times n c) in
  Connection.g_db c' = None
  ∧ Connection.connected c' = (Connection.connected c + if n is O then 0 else 1)%nat
  ∧ (Connection.get_db (Connection.get_db_times (S n) c)).1 = (Connection.get_db c).1
  ∧ (Connection.no_leak c → ∀ db, (db < Connection.connected c')%nat →
                               db ∈ Connection.closed c')
  ∧ Connection.close_db c = c.
Proof.
  intros Hg. cbv zeta.
  assert (Hclose : Connection.close_db c = c).
  { unfold Connection.close_db. by rewrite Hg. }
  assert (Hget : Connection.get_db c
                 = (Connection.connected c,
                    Connection.mk_context (Some (Connection.connected c))
                                          (S (Connection.connected c))
                                          (Connection.closed c))).
  { unfold Connection.get_db. by rewrite Hg. }
  destruct n as [|n].
  - cbn [Connection.get_db_times].
    rewrite Hclose, (get_db_held _ _ (get_db_holds c)).
    split_and!; [done | lia | done | | done].
    intros Hleak db Hdb. destruct (Hleak db Hdb) as [?|Hheld]; [done | congruence].
  - rewrite !get_db_times_S, (get_db_held _ _ (get_db_holds c)), Hget. cbn.
    split_and!; [done | lia | done | | done].
    intros Hleak db Hdb. apply elem_of_cons.
    destruct (decide (db = Connection.connected c)) as [->|Hne]; [by left|].
    right. destruct (Hleak db ltac:(lia)) as [?|Hheld]; [done | congruence].
Qed.

Lemma connection_lifecycle_witness :
  let fresh := Connection.mk_context None 0 [] in
  let c' := Connection.close_db (Connection.get_db_times 3 fresh) in
  Connection.g_db c' = None
  ∧ Connection.connected c' = 1%nat
  ∧ Connection.closed c' = [0%nat].
Proof.
  intros fresh c'.
  destruct (connection_lifecycle 3 fresh eq_refl) as (Hg & Hconnected & _).
  split_and!; [exact Hg | exact Hconnected | reflexivity].
Defined.
